(* ===== verification/_CoqProject ===== *)
-Q . S2P
Prelude.v
Glam.v
Gizmos.v
Values.v
