(* ===== verification/Prelude.v ===== *)
(** * A verification development for the blackjack engine (DamenH/blackjack)

    ** The program and its parts

    The repository's sources under [src/] are
    [src/blackjack_engine/src/lib.rs], which only declares the crate's
    modules ([prelude], [mesh], [lua_engine], [graph], [graph_compiler]),
    and [src/blackjack_engine/src/gizmos.rs], the transform gizmo: a
    struct [TransformGizmo] holding a translation, a rotation quaternion
    and a scale, with a Lua constructor [TransformGizmo.new] taking XYZ
    Euler angles, Lua getters and setters for the three components, and
    the Rust-only [matrix] / [set_from_matrix] that convert it to and from
    an affine [Mat4].  The gizmo delegates all its arithmetic to the glam
    crate ([Quat::from_euler], [Quat::to_euler], [Mat4::from_scale_rotation_translation],
    [Mat4::to_scale_rotation_translation]); Lua scripts reach it through the
    bindings the [#[lua_impl]] macro generates.  The spec describes a
    larger system, a graph-to-Lua compiler (value model, graph data model,
    dependency resolver, program emitter, diagnostics), whose code is not
    under [src/]; the gizmo is its "transform data interchange" boundary
    (spec section 6).

    ** Files

    - [Prelude.v] (this file): the [bj_scope] notation scope, the
      [bj] hint database, the tactics [rdec] (case analysis on the real
      comparisons glam branches on) and [rfield] ([field] modulo glam's
      literal [0.5]), and the trigonometric and square-root lemmas the
      other files share.
    - [Glam.v]: the glam functions the gizmo calls, over [R]: Modules
      [F32] ([atan2], [clamp], [signum]), [Vec3], [Vec4], [Quat]
      ([from_rotation_x/y/z], [mul_quat], [normalize], [from_euler_xyz],
      [to_euler_xyz], [from_rotation_axes]) and [Mat4] ([quat_to_axes],
      [from_scale_rotation_translation], [determinant],
      [to_scale_rotation_translation]), with their lemmas: products and
      Euler rotations are unit quaternions, [to_euler_xyz] inverts
      [from_euler_xyz] on the principal range and [from_euler_xyz] inverts
      [to_euler_xyz] up to sign away from gimbal lock (through the
      rotation matrix of an Euler rotation, [euler_axes], and [atan2]'s
      polar form, [atan2_cos_sin]), and decomposing a composed
      matrix returns its scale, its translation and its rotation up to
      sign ([to_srt_from_srt]).  This is a model of an external library,
      not of repository code, and is not in the manifest's map.
    - [Gizmos.v]: [gizmos.rs].  The struct is the Record [TransformGizmo];
      the Rust [mod tr_gizmo] is the Module [tr_gizmo], with one
      Definition per function ([new], [translation], [set_translation],
      [rotation], [set_rotation], [scale], [set_scale], [matrix],
      [set_from_matrix]), a [&mut self] method returning the new record;
      the Lua surface is [tr_gizmo.LuaCall] / [tr_gizmo.lua_call], a
      script is [run_lua]; [gizmo_step] / [reachable] are the state
      machine of every state-changing method.
    - [Values.v]: the compiler's value and type model (spec 4.1), from
      the spec: [DataType], [Value] (scalar type as a parameter),
      [value_type], [is_assignable] and its laws.  No manifest property
      rests on it alone: its code is not under [src/].

    ** What is proved

    - Invariant (rule induction on [reachable]): every gizmo built by
      [new] and changed by any sequence of the state-changing methods
      (the Lua setters and the Rust [set_from_matrix]) stores a unit
      quaternion ([reachable_wf]).
    - Round trips: [rotation] after [set_rotation] (and after [new])
      returns the angles written on the principal Euler range
      ([rotation_set_rotation], [new_components]); glam decomposes
      [matrix g] back into [g]'s components ([matrix_decompose]).
    - The other round trip: away from gimbal lock, writing back what the
      rotation getter returns keeps the matrix ([set_rotation_rotation],
      from [Glam.from_euler_to_euler]: [from_euler (to_euler q)] is [q] or
      [-q]); at gimbal lock it does not: the gizmo built with Euler angles
      [(1, PI/2, 0)] changes ([set_rotation_rotation_gimbal]).
    - Ordering in a Lua script: a read returns the latest write before it
      ([lua_read_latest_write]).
    - [set_from_matrix]: it restores the scale and the translation but
      stores [from_euler(r.x, r.y, r.z)], the decomposed quaternion's
      imaginary parts read as Euler angles ([set_from_matrix_rotation]),
      so writing a gizmo's own matrix back changes it
      ([set_from_matrix_breaks_matrix], for a rotation by PI about x).

    ** Modelling choices

    [f32] is idealised as [R] (exact arithmetic, total [sqrt] and [/],
    [x / 0 = 0], no NaN, infinity or signed zero): the theorems are about
    the algorithm, not about rounding.  This matters at singular inputs:
    a singular matrix, for which the [f32] code stores a NaN rotation, and
    the singular Euler angles (gimbal lock, the [PI] branch cut of
    [atan2]), where rounding and signed zeros decide the angles [f32]
    returns.  No theorem states the exact angles returned there; the
    gimbal-lock theorem only states that the matrix changes, which the
    [f32] program does too.  The definitions over [R] are not executable
    (the reals of the Standard Library are axiomatic), so witnesses
    discharge their hypotheses with [lra] and the facts on [PI] instead
    of by evaluation.  There is no loop and no fuel in the gizmo.  The
    [LVec3] newtype of the Lua boundary is erased (it only wraps a
    [Vec3]); glam's debug assertions are not modelled.

    ** Not modelled, and the plan for the next sittings

    [lib.rs] is module declarations only.  The halfedge mesh, the Lua
    runtime and its standard library, the UI and persistence are outside
    the spec's core.  The graph compiler the spec describes is not under
    [src/]; its value model is modelled ([Values.v]) and the rest would be
    modelled from the spec, with stdpp ([gmap] for the node arena, [gset]
    for the DFS marks), one file per component: [Graph.v] (nodes,
    bindings, [add_node], [connect], [set_literal], [mark_output] as a
    result-returning state transformer: each error case, no change on
    failure, the per-edge typing invariant), [Resolver.v] (the
    three-colour DFS with fuel = number of nodes: termination with enough
    fuel, topological order, single visit under fan-out, dead-node
    elimination, cycle detection with a path that is a cycle) and
    [Emitter.v] (each retained node emitted once, no reference before its
    binding, the output list in [mark_output] order).  The transform
    data interchange of spec 6 is the gizmo's own getters and [new]; it
    adds no code of its own and is covered by the gizmo's theorems. *)

From Stdlib Require Import Reals Lra RNsatz.

Declare Scope bj_scope.
Delimit Scope bj_scope with bj.
Local Open Scope R_scope.

(** ** Case analysis on the real comparisons of a model *)

(** [rdec] splits every [Rlt_dec]/[Rle_dec] test the goal mentions; the
    glam models branch on the sign of a float with these tests. *)
Ltac rdec :=
  repeat match goal with
  | |- context [Rlt_dec ?a ?b] => destruct (Rlt_dec a b)
  | |- context [Rle_dec ?a ?b] => destruct (Rle_dec a b)
  | H : context [Rlt_dec ?a ?b] |- _ => destruct (Rlt_dec a b)
  | H : context [Rle_dec ?a ?b] |- _ => destruct (Rle_dec a b)
  end.

Create HintDb bj.

(** [0.5] is glam's literal; [field] needs it as [/ 2]. *)
Lemma R_half : 0.5 = / 2.
Proof. lra. Qed.

Ltac rfield := rewrite ?R_half; field.

(** ** Generic real-number lemmas *)

(** The half-angle identities glam's [sin_cos (angle * 0.5)] relies on. *)
Lemma sin_half_double (a : R) :
  sin a = 2 * sin (a * 0.5) * cos (a * 0.5).
Proof. rewrite <- sin_2a. f_equal. lra. Qed.

Lemma cos_half_double (a : R) :
  cos a = cos (a * 0.5) * cos (a * 0.5) - sin (a * 0.5) * sin (a * 0.5).
Proof. rewrite <- cos_2a. f_equal. lra. Qed.

Lemma sin_cos_sq (a : R) : sin a * sin a + cos a * cos a = 1.
Proof. pose proof (sin2_cos2 a) as H. unfold Rsqr in H. exact H. Qed.

Lemma sqrt_sq_pos (a : R) : 0 <= a -> sqrt (a * a) = a.
Proof. intros H. apply sqrt_square. exact H. Qed.

Lemma sqrt_sq_abs (a : R) : sqrt (a * a) = Rabs a.
Proof. rewrite <- Rsqr_def. apply sqrt_Rsqr_abs. Qed.

#[export] Hint Resolve sin_cos_sq : bj.
