(* ===== verification/Glam.v ===== *)
(** * The glam operations the transform gizmo calls, over the reals

    [src/blackjack_engine/src/gizmos.rs] stores a rotation as a glam
    [Quat] and converts it to and from XYZ Euler angles with glam's
    [Quat::from_euler] / [Quat::to_euler], and builds and decomposes
    affine matrices with [Mat4::from_scale_rotation_translation] /
    [Mat4::to_scale_rotation_translation].  This file models those glam
    (0.21) functions, the only arms of them the gizmo reaches (the
    [EulerRot::XYZ] order), with [f32] idealised as [R]: no rounding, no
    infinities, [sqrt] and [/] total as in the Standard Library.  The
    [glam_assert!]s are debug-only and are not modelled.

    Modules mirror glam's types: [Vec3], [Vec4], [Quat], [Mat4], and
    [F32] for the scalar helpers ([atan2], [clamp], [signum]). *)

From Stdlib Require Import Reals Lra RNsatz.
From S2P Require Import Prelude.
Local Open Scope R_scope.

(** ** Scalars: the [f32] methods glam uses *)
Module F32.

(** [f32::atan2] (libm): the angle of the point [(x, y)] in [(-PI, PI]];
    [atan2 0 0 = 0]. *)
Definition atan2 (y x : R) : R :=
  if Rlt_dec 0 x then atan (y / x)
  else if Rlt_dec x 0 then
    (if Rle_dec 0 y then atan (y / x) + PI else atan (y / x) - PI)
  else if Rlt_dec 0 y then PI / 2
  else if Rlt_dec y 0 then - (PI / 2) else 0.

(** [f32::clamp(min, max)]. *)
Definition clamp (v lo hi : R) : R :=
  if Rlt_dec v lo then lo else if Rlt_dec hi v then hi else v.

(** [f32::signum]: [1.0] for [+0.0] and positive numbers, [-1.0] below. *)
Definition signum (v : R) : R := if Rlt_dec v 0 then -1 else 1.

End F32.

(** ** [glam::Vec3] *)
Module Vec3.
Record t := new { x : R; y : R; z : R }.

(** [Vec3::recip]: the componentwise reciprocal. *)
Definition recip (v : t) : t := new (1 / x v) (1 / y v) (1 / z v).
End Vec3.

(** ** [glam::Vec4] *)
Module Vec4.
Record t := new { x : R; y : R; z : R; w : R }.

Definition dot (a b : t) : R := x a * x b + y a * y b + z a * z b + w a * w b.
Definition length (v : t) : R := sqrt (dot v v).

(** [impl Mul<f32> for Vec4]. *)
Definition mul (v : t) (s : R) : t := new (x v * s) (y v * s) (z v * s) (w v * s).

(** [Vec4::xyz] and [Vec4::from((Vec3, f32))]. *)
Definition xyz (v : t) : Vec3.t := Vec3.new (x v) (y v) (z v).
Definition from_vec3 (v : Vec3.t) (w : R) : t := new (Vec3.x v) (Vec3.y v) (Vec3.z v) w.
End Vec4.

(** ** [glam::Quat] *)
Module Quat.
Record t := from_xyzw { x : R; y : R; z : R; w : R }.

(** [Quat::from_rotation_x/y/z]: [let (s, c) = (angle * 0.5).sin_cos()]. *)
Definition from_rotation_x (angle : R) : t :=
  from_xyzw (sin (angle * 0.5)) 0 0 (cos (angle * 0.5)).
Definition from_rotation_y (angle : R) : t :=
  from_xyzw 0 (sin (angle * 0.5)) 0 (cos (angle * 0.5)).
Definition from_rotation_z (angle : R) : t :=
  from_xyzw 0 0 (sin (angle * 0.5)) (cos (angle * 0.5)).

(** [Quat::mul_quat], the Hamilton product. *)
Definition mul_quat (a b : t) : t :=
  from_xyzw
    (w a * x b + x a * w b + y a * z b - z a * y b)
    (w a * y b - x a * z b + y a * w b + z a * x b)
    (w a * z b + x a * y b - y a * x b + z a * w b)
    (w a * w b - x a * x b - y a * y b - z a * z b).

Definition length_squared (q : t) : R := x q * x q + y q * y q + z q * z q + w q * w q.
Definition length (q : t) : R := sqrt (length_squared q).

(** [Quat::normalize]: [self * self.length_recip()]. *)
Definition normalize (q : t) : t :=
  let r := 1 / length q in from_xyzw (x q * r) (y q * r) (z q * r) (w q * r).

(** [Quat::from_euler(EulerRot::XYZ, a, b, c)]: glam's [new_quat] arm
    [rot_x(a).mul_quat(rot_y(b)).mul_quat(rot_z(c))], then [normalize]. *)
Definition from_euler_xyz (a b c : R) : t :=
  normalize (mul_quat (mul_quat (from_rotation_x a) (from_rotation_y b)) (from_rotation_z c)).

(** [Quat::to_euler(EulerRot::XYZ)]: glam's [first], [second] and
    [third] arms for [XYZ]. *)
Definition to_euler_xyz (q : t) : R * R * R :=
  (F32.atan2 (-2 * (y q * z q - w q * x q))
             (w q * w q - x q * x q - y q * y q + z q * z q),
   asin (F32.clamp (2 * (x q * z q + w q * y q)) (-1) 1),
   F32.atan2 (-2 * (x q * y q - w q * z q))
             (w q * w q + x q * x q - y q * y q - z q * z q)).

(** [Quat::from_rotation_axes] (reached through [from_rotation_mat3]):
    the four-branch extraction of a quaternion from a rotation matrix,
    each branch dividing by the largest of [4x^2], [4y^2], [4z^2], [4w^2]. *)
Definition from_rotation_axes (x_axis y_axis z_axis : Vec3.t) : t :=
  let m00 := Vec3.x x_axis in let m01 := Vec3.y x_axis in let m02 := Vec3.z x_axis in
  let m10 := Vec3.x y_axis in let m11 := Vec3.y y_axis in let m12 := Vec3.z y_axis in
  let m20 := Vec3.x z_axis in let m21 := Vec3.y z_axis in let m22 := Vec3.z z_axis in
  if Rle_dec m22 0 then
    let dif10 := m11 - m00 in
    let omm22 := 1 - m22 in
    if Rle_dec dif10 0 then
      let four_xsq := omm22 - dif10 in
      let inv4x := 0.5 / sqrt four_xsq in
      from_xyzw (four_xsq * inv4x) ((m01 + m10) * inv4x)
                ((m02 + m20) * inv4x) ((m12 - m21) * inv4x)
    else
      let four_ysq := omm22 + dif10 in
      let inv4y := 0.5 / sqrt four_ysq in
      from_xyzw ((m01 + m10) * inv4y) (four_ysq * inv4y)
                ((m12 + m21) * inv4y) ((m20 - m02) * inv4y)
  else
    let sum10 := m11 + m00 in
    let opm22 := 1 + m22 in
    if Rle_dec sum10 0 then
      let four_zsq := opm22 - sum10 in
      let inv4z := 0.5 / sqrt four_zsq in
      from_xyzw ((m02 + m20) * inv4z) ((m12 + m21) * inv4z)
                (four_zsq * inv4z) ((m01 - m10) * inv4z)
    else
      let four_wsq := opm22 + sum10 in
      let inv4w := 0.5 / sqrt four_wsq in
      from_xyzw ((m12 - m21) * inv4w) ((m20 - m02) * inv4w)
                ((m01 - m10) * inv4w) (four_wsq * inv4w).

(** A rotation: a quaternion of length one. *)
Definition is_unit (q : t) : Prop := length_squared q = 1.

(** The same rotation: [q] and [-q] act identically. *)
Definition neg (q : t) : t := from_xyzw (- x q) (- y q) (- z q) (- w q).
End Quat.

(** ** [glam::Mat4], stored as four columns *)
Module Mat4.
Record t := from_cols { x_axis : Vec4.t; y_axis : Vec4.t; z_axis : Vec4.t; w_axis : Vec4.t }.

(** [Mat4::quat_to_axes]: the three rotation columns of a unit quaternion. *)
Definition quat_to_axes (q : Quat.t) : Vec4.t * Vec4.t * Vec4.t :=
  let x := Quat.x q in let y := Quat.y q in let z := Quat.z q in let w := Quat.w q in
  let x2 := x + x in let y2 := y + y in let z2 := z + z in
  let xx := x * x2 in let xy := x * y2 in let xz := x * z2 in
  let yy := y * y2 in let yz := y * z2 in let zz := z * z2 in
  let wx := w * x2 in let wy := w * y2 in let wz := w * z2 in
  (Vec4.new (1 - (yy + zz)) (xy + wz) (xz - wy) 0,
   Vec4.new (xy - wz) (1 - (xx + zz)) (yz + wx) 0,
   Vec4.new (xz + wy) (yz - wx) (1 - (xx + yy)) 0).

(** [Mat4::from_scale_rotation_translation]. *)
Definition from_scale_rotation_translation (scale : Vec3.t) (rotation : Quat.t)
    (translation : Vec3.t) : t :=
  let '(xa, ya, za) := quat_to_axes rotation in
  from_cols (Vec4.mul xa (Vec3.x scale)) (Vec4.mul ya (Vec3.y scale))
            (Vec4.mul za (Vec3.z scale)) (Vec4.from_vec3 translation 1).

(** [Mat4::determinant], by glam's 2x2 minors of the last two columns. *)
Definition determinant (m : t) : R :=
  let m00 := Vec4.x (x_axis m) in let m01 := Vec4.y (x_axis m) in
  let m02 := Vec4.z (x_axis m) in let m03 := Vec4.w (x_axis m) in
  let m10 := Vec4.x (y_axis m) in let m11 := Vec4.y (y_axis m) in
  let m12 := Vec4.z (y_axis m) in let m13 := Vec4.w (y_axis m) in
  let m20 := Vec4.x (z_axis m) in let m21 := Vec4.y (z_axis m) in
  let m22 := Vec4.z (z_axis m) in let m23 := Vec4.w (z_axis m) in
  let m30 := Vec4.x (w_axis m) in let m31 := Vec4.y (w_axis m) in
  let m32 := Vec4.z (w_axis m) in let m33 := Vec4.w (w_axis m) in
  let a2323 := m22 * m33 - m23 * m32 in
  let a1323 := m21 * m33 - m23 * m31 in
  let a1223 := m21 * m32 - m22 * m31 in
  let a0323 := m20 * m33 - m23 * m30 in
  let a0223 := m20 * m32 - m22 * m30 in
  let a0123 := m20 * m31 - m21 * m30 in
  m00 * (m11 * a2323 - m12 * a1323 + m13 * a1223)
  - m01 * (m10 * a2323 - m12 * a0323 + m13 * a0223)
  + m02 * (m10 * a1323 - m11 * a0323 + m13 * a0123)
  - m03 * (m10 * a1223 - m11 * a0223 + m12 * a0123).

(** [Mat4::to_scale_rotation_translation]: the scale from the column
    lengths (the first one carrying the sign of the determinant), the
    rotation from the normalised columns, the translation from the last. *)
Definition to_scale_rotation_translation (m : t) : Vec3.t * Quat.t * Vec3.t :=
  let det := determinant m in
  let scale := Vec3.new (Vec4.length (x_axis m) * F32.signum det)
                        (Vec4.length (y_axis m)) (Vec4.length (z_axis m)) in
  let inv_scale := Vec3.recip scale in
  let rotation := Quat.from_rotation_axes
                    (Vec4.xyz (Vec4.mul (x_axis m) (Vec3.x inv_scale)))
                    (Vec4.xyz (Vec4.mul (y_axis m) (Vec3.y inv_scale)))
                    (Vec4.xyz (Vec4.mul (z_axis m) (Vec3.z inv_scale))) in
  let translation := Vec4.xyz (w_axis m) in
  (scale, rotation, translation).
End Mat4.

(** [q1 *q q2] is glam's [q1.mul_quat(q2)]. *)
Notation "q1 *q q2" := (Quat.mul_quat q1 q2) (at level 40, left associativity) : bj_scope.
Local Open Scope bj_scope.

(** ** Scalar lemmas: [atan2] inverts polar coordinates *)

Lemma atan_ratio k b : k <> 0 -> - (PI/2) < b < PI/2 -> atan ((k * sin b) / (k * cos b)) = b.
Proof.
  intros Hk Hb. assert (0 < cos b) by (apply cos_gt_0; lra).
  replace ((k * sin b) / (k * cos b)) with (tan b) by (unfold tan; field; split; lra).
  apply atan_tan; lra.
Qed.

Lemma atan2_polar k a : 0 < k -> - PI < a <= PI -> F32.atan2 (k * sin a) (k * cos a) = a.
Proof.
  intros Hk Ha. pose proof PI_RGT_0 as Hpi. unfold F32.atan2.
  destruct (Rtotal_order a (PI/2)) as [Hlt|[Heq|Hgt]].
  - destruct (Rtotal_order a (-(PI/2))) as [Hlt'|[Heq'|Hgt']].
    + assert (Hc : cos (a + PI) > 0) by (apply cos_gt_0; lra).
      assert (Hs : sin (a + PI) > 0) by (apply sin_gt_0; lra).
      rewrite neg_cos, neg_sin in *.
      replace (k * sin a) with ((-k) * sin (a + PI)) by (rewrite neg_sin; ring).
      replace (k * cos a) with ((-k) * cos (a + PI)) by (rewrite neg_cos; ring).
      rewrite neg_cos, neg_sin. rdec; try nra.
      replace (- k * - sin a / (- k * - cos a)) with ((-k) * sin (a + PI) / ((-k) * cos (a + PI))) by (rewrite neg_cos, neg_sin; reflexivity).
      rewrite atan_ratio by lra. lra.
    + subst a. rewrite cos_neg, sin_neg, cos_PI2, sin_PI2, Rmult_0_r. rdec; lra.
    + assert (Hc : 0 < cos a) by (apply cos_gt_0; lra).
      rdec; try nra. apply atan_ratio; lra.
  - subst a. rewrite cos_PI2, sin_PI2, Rmult_0_r. rdec; lra.
  - assert (Hc : cos (a - PI) > 0) by (apply cos_gt_0; lra).
    assert (Hsa : 0 <= sin a) by (apply sin_ge_0; lra).
    assert (Hm : forall f, f = sin \/ f = cos -> f (a - PI) = - f a).
    { intros f [-> | ->]; unfold Rminus; rewrite ?sin_plus, ?cos_plus, sin_neg, cos_neg, cos_PI, sin_PI; ring. }
    rewrite (Hm cos) in Hc by auto.
    rdec; try nra.
    replace (k * sin a / (k * cos a)) with ((-k) * sin (a - PI) / ((-k) * cos (a - PI)))
      by (rewrite (Hm sin), (Hm cos) by auto; field; nra).
    rewrite atan_ratio by lra. lra.
Qed.

(** ** Quaternion lemmas *)

Lemma mul_quat_length_squared a b :
  Quat.length_squared (a *q b) = Quat.length_squared a * Quat.length_squared b.
Proof. destruct a, b. unfold Quat.length_squared. simpl. ring. Qed.

Lemma from_rotation_unit a :
  Quat.is_unit (Quat.from_rotation_x a) /\ Quat.is_unit (Quat.from_rotation_y a) /\
  Quat.is_unit (Quat.from_rotation_z a).
Proof.
  unfold Quat.is_unit, Quat.length_squared. simpl.
  pose proof (sin_cos_sq (a * 0.5)). repeat split; lra.
Qed.

Lemma normalize_unit q : Quat.is_unit q -> Quat.normalize q = q.
Proof.
  unfold Quat.is_unit, Quat.normalize, Quat.length. intros ->. rewrite sqrt_1.
  destruct q. simpl. f_equal; field.
Qed.

Lemma from_euler_xyz_product a b c :
  Quat.from_euler_xyz a b c =
  Quat.from_rotation_x a *q Quat.from_rotation_y b *q Quat.from_rotation_z c.
Proof.
  unfold Quat.from_euler_xyz. apply normalize_unit. unfold Quat.is_unit.
  rewrite !mul_quat_length_squared.
  destruct (from_rotation_unit a) as (-> & _ & _).
  destruct (from_rotation_unit b) as (_ & -> & _).
  destruct (from_rotation_unit c) as (_ & _ & ->). ring.
Qed.

Lemma from_euler_xyz_unit a b c : Quat.is_unit (Quat.from_euler_xyz a b c).
Proof.
  rewrite from_euler_xyz_product. unfold Quat.is_unit.
  rewrite !mul_quat_length_squared.
  destruct (from_rotation_unit a) as (-> & _ & _).
  destruct (from_rotation_unit b) as (_ & -> & _).
  destruct (from_rotation_unit c) as (_ & _ & ->). ring.
Qed.

#[export] Hint Resolve from_euler_xyz_unit : bj.

(** The five polynomials [to_euler_xyz] reads, on a product
    [rot_x * rot_y * rot_z] given by its half-angle sines and cosines. *)
Lemma euler_xyz_polynomials sa ca sb cb sc cc :
  sa * sa + ca * ca = 1 -> sb * sb + cb * cb = 1 -> sc * sc + cc * cc = 1 ->
  let q := Quat.from_xyzw sa 0 0 ca *q Quat.from_xyzw 0 sb 0 cb *q Quat.from_xyzw 0 0 sc cc in
  -2 * (Quat.y q * Quat.z q - Quat.w q * Quat.x q) = (cb * cb - sb * sb) * (2 * sa * ca) /\
  Quat.w q * Quat.w q - Quat.x q * Quat.x q - Quat.y q * Quat.y q + Quat.z q * Quat.z q
    = (cb * cb - sb * sb) * (ca * ca - sa * sa) /\
  2 * (Quat.x q * Quat.z q + Quat.w q * Quat.y q) = 2 * sb * cb /\
  -2 * (Quat.x q * Quat.y q - Quat.w q * Quat.z q) = (cb * cb - sb * sb) * (2 * sc * cc) /\
  Quat.w q * Quat.w q + Quat.x q * Quat.x q - Quat.y q * Quat.y q - Quat.z q * Quat.z q
    = (cb * cb - sb * sb) * (cc * cc - sc * sc).
Proof. intros Ha Hb Hc. simpl. repeat split; nsatz. Qed.

Lemma clamp_id v : -1 <= v <= 1 -> F32.clamp v (-1) 1 = v.
Proof. intros H. unfold F32.clamp. rdec; lra. Qed.

Theorem to_euler_from_euler_xyz a b c :
  - PI < a <= PI -> - (PI / 2) < b < PI / 2 -> - PI < c <= PI ->
  Quat.to_euler_xyz (Quat.from_euler_xyz a b c) = (a, b, c).
Proof.
  intros Ha Hb Hc. rewrite from_euler_xyz_product.
  unfold Quat.to_euler_xyz, Quat.from_rotation_x, Quat.from_rotation_y, Quat.from_rotation_z.
  destruct (euler_xyz_polynomials (sin (a * 0.5)) (cos (a * 0.5)) (sin (b * 0.5)) (cos (b * 0.5))
              (sin (c * 0.5)) (cos (c * 0.5))) as (H1 & H2 & H3 & H4 & H5); try apply sin_cos_sq.
  rewrite H1, H2, H3, H4, H5, <- !sin_half_double, <- !cos_half_double.
  assert (Hcb : 0 < cos b) by (apply cos_gt_0; lra).
  rewrite !atan2_polar by lra.
  rewrite clamp_id by (pose proof (SIN_bound b); lra).
  rewrite asin_sin by lra. reflexivity.
Qed.

(** ** Matrix lemmas: decomposing a composed affine matrix *)

Lemma sqrt_4sq (c E : R) : E = (2 * c) * (2 * c) -> sqrt E = 2 * Rabs c.
Proof.
  intros ->. rewrite sqrt_sq_abs, Rabs_mult, Rabs_right by lra. reflexivity.
Qed.

Ltac axes_branch c :=
  match goal with |- context [sqrt ?E] =>
    let HE := fresh in
    assert (HE : E = (2 * c) * (2 * c)) by nra;
    rewrite HE, (sqrt_4sq c) by reflexivity; clear HE
  end;
  destruct (Rcase_abs c) as [Hs|Hs];
  [ rewrite (Rabs_left c Hs); right
  | rewrite (Rabs_right c Hs); left ];
  unfold Quat.neg; simpl; f_equal; rfield; nra.

Lemma from_rotation_axes_unit (q : Quat.t) :
  Quat.is_unit q ->
  let '(xa, ya, za) := Mat4.quat_to_axes q in
  Quat.from_rotation_axes (Vec4.xyz xa) (Vec4.xyz ya) (Vec4.xyz za) = q \/
  Quat.from_rotation_axes (Vec4.xyz xa) (Vec4.xyz ya) (Vec4.xyz za) = Quat.neg q.
Proof.
  destruct q as [x y z w]. unfold Quat.is_unit, Quat.length_squared. simpl. intros Hu.
  unfold Quat.from_rotation_axes. simpl.
  destruct (Rle_dec _ 0) as [H1|H1]; [destruct (Rle_dec _ 0) as [H2|H2]|destruct (Rle_dec _ 0) as [H2|H2]].
  - axes_branch x.
  - axes_branch y.
  - axes_branch z.
  - axes_branch w.
Qed.

Lemma from_srt_determinant s q t :
  Quat.is_unit q ->
  Mat4.determinant (Mat4.from_scale_rotation_translation s q t) = Vec3.x s * Vec3.y s * Vec3.z s.
Proof.
  destruct s, q, t. unfold Quat.is_unit, Quat.length_squared. simpl. intros Hu.
  unfold Mat4.determinant, Mat4.from_scale_rotation_translation, Mat4.quat_to_axes. simpl.
  nsatz.
Qed.

Lemma from_srt_axis_length s q t :
  Quat.is_unit q ->
  let m := Mat4.from_scale_rotation_translation s q t in
  Vec4.length (Mat4.x_axis m) = Rabs (Vec3.x s) /\
  Vec4.length (Mat4.y_axis m) = Rabs (Vec3.y s) /\
  Vec4.length (Mat4.z_axis m) = Rabs (Vec3.z s).
Proof.
  destruct s as [sx sy sz], q as [x y z w], t. unfold Quat.is_unit, Quat.length_squared. simpl. intros Hu.
  unfold Vec4.length, Vec4.dot. simpl. rewrite <- !sqrt_sq_abs.
  repeat split; f_equal; nsatz.
Qed.

(** Decomposing the matrix of a positive scale, a rotation and a
    translation gives back the scale, the translation and the rotation up
    to its sign (which denotes the same rotation). *)
Theorem to_srt_from_srt (s : Vec3.t) (q : Quat.t) (t : Vec3.t) :
  Quat.is_unit q -> 0 < Vec3.x s -> 0 < Vec3.y s -> 0 < Vec3.z s ->
  exists r, Mat4.to_scale_rotation_translation (Mat4.from_scale_rotation_translation s q t) = (s, r, t)
            /\ (r = q \/ r = Quat.neg q).
Proof.
  intros Hu Hx Hy Hz. unfold Mat4.to_scale_rotation_translation.
  destruct (from_srt_axis_length s q t Hu) as (Lx & Ly & Lz).
  rewrite from_srt_determinant, Lx, Ly, Lz by exact Hu.
  assert (0 < Vec3.x s * Vec3.y s * Vec3.z s)
    by (apply Rmult_lt_0_compat; [apply Rmult_lt_0_compat|]; lra).
  unfold F32.signum. rdec; [lra|]. rewrite !Rabs_right by lra.
  pose proof (from_rotation_axes_unit q Hu) as Hr.
  unfold Mat4.from_scale_rotation_translation in *.
  destruct (Mat4.quat_to_axes q) as [[xa ya] za] eqn:Eq. simpl.
  eexists; split; [|exact Hr].
  destruct s as [sx sy sz], t, xa, ya, za.
  unfold Vec4.xyz, Vec4.mul, Vec3.recip, Vec4.from_vec3; simpl.
  simpl in Hx, Hy, Hz. repeat f_equal; field; lra.
Qed.

(** [q] and [-q] give the same matrix. *)
Lemma from_srt_neg (s : Vec3.t) (q : Quat.t) (t : Vec3.t) :
  Mat4.from_scale_rotation_translation s (Quat.neg q) t =
  Mat4.from_scale_rotation_translation s q t.
Proof.
  destruct q. unfold Mat4.from_scale_rotation_translation, Mat4.quat_to_axes, Quat.neg, Vec4.mul.
  simpl. f_equal; f_equal; ring.
Qed.

Lemma Vec3_eta (v : Vec3.t) : Vec3.new (Vec3.x v) (Vec3.y v) (Vec3.z v) = v.
Proof. destruct v. reflexivity. Qed.

(** The rotation [from_euler_xyz a 0 0] about [x] maps the [y] axis to
    [(0, cos a, sin a)]: the [y_axis.y] entry of its matrix. *)
Lemma from_srt_euler_x_yy (a : R) (s t : Vec3.t) :
  Vec4.y (Mat4.y_axis (Mat4.from_scale_rotation_translation s (Quat.from_euler_xyz a 0 0) t))
  = cos a * Vec3.y s.
Proof.
  rewrite from_euler_xyz_product, (cos_half_double a).
  unfold Mat4.from_scale_rotation_translation, Mat4.quat_to_axes, Quat.from_rotation_x,
    Quat.from_rotation_y, Quat.from_rotation_z. simpl.
  rewrite Rmult_0_l, sin_0, cos_0. pose proof (sin_cos_sq (a * 0.5)). nsatz.
Qed.

Lemma atan2_0_0 : F32.atan2 0 0 = 0.
Proof. unfold F32.atan2. rdec; lra. Qed.

(** ** Euler angles read back: [from_euler_xyz] after [to_euler_xyz] *)

Lemma sqrt_ratio (x y : R) :
  x <> 0 -> sqrt (x * x + y * y) = Rabs x * sqrt (1 + (y / x)²).
Proof.
  intros Hx. rewrite <- sqrt_sq_abs, <- sqrt_mult_alt by nra.
  f_equal. unfold Rsqr. field. exact Hx.
Qed.

Lemma atan2_cos_sin (y x : R) :
  cos (F32.atan2 y x) * sqrt (x * x + y * y) = x /\
  sin (F32.atan2 y x) * sqrt (x * x + y * y) = y.
Proof.
  unfold F32.atan2. rdec.
  - rewrite sqrt_ratio, cos_atan, sin_atan, Rabs_right by lra.
    assert (0 < sqrt (1 + (y / x)²)) by (apply sqrt_lt_R0; pose proof (Rle_0_sqr (y / x)); lra).
    split; field; lra.
  - rewrite sqrt_ratio, neg_cos, neg_sin, cos_atan, sin_atan, Rabs_left by lra.
    assert (0 < sqrt (1 + (y / x)²)) by (apply sqrt_lt_R0; pose proof (Rle_0_sqr (y / x)); lra).
    split; field; lra.
  - unfold Rminus. rewrite sqrt_ratio, cos_plus, sin_plus, cos_neg, sin_neg, cos_PI, sin_PI,
      cos_atan, sin_atan, Rabs_left by lra.
    assert (0 < sqrt (1 + (y / x)²)) by (apply sqrt_lt_R0; pose proof (Rle_0_sqr (y / x)); lra).
    split; field; lra.
  - assert (x = 0) by lra. subst x. rewrite cos_PI2, sin_PI2.
    replace (0 * 0 + y * y) with (y * y) by ring. rewrite sqrt_sq_pos by lra. lra.
  - assert (x = 0) by lra. subst x. rewrite cos_neg, sin_neg, cos_PI2, sin_PI2.
    replace (0 * 0 + y * y) with ((- y) * (- y)) by ring. rewrite sqrt_sq_pos by lra. lra.
  - assert (x = 0) by lra. assert (y = 0) by lra. subst. rewrite Rmult_0_l, Rplus_0_l, sqrt_0. lra.
Qed.
(** The rotation matrix of [from_euler_xyz a b c], [Rx(a) Ry(b) Rz(c)],
    column by column, in the full angles. *)
Lemma euler_axes (a b c : R) :
  Mat4.quat_to_axes (Quat.from_euler_xyz a b c) =
  (Vec4.new (cos b * cos c) (cos a * sin c + sin a * sin b * cos c)
            (sin a * sin c - cos a * sin b * cos c) 0,
   Vec4.new (- (cos b * sin c)) (cos a * cos c - sin a * sin b * sin c)
            (sin a * cos c + cos a * sin b * sin c) 0,
   Vec4.new (sin b) (- (sin a * cos b)) (cos a * cos b) 0).
Proof.
  rewrite from_euler_xyz_product.
  rewrite (sin_half_double a), (cos_half_double a), (sin_half_double b), (cos_half_double b),
    (sin_half_double c), (cos_half_double c).
  pose proof (sin_cos_sq (a * 0.5)). pose proof (sin_cos_sq (b * 0.5)). pose proof (sin_cos_sq (c * 0.5)).
  unfold Mat4.quat_to_axes, Quat.from_rotation_x, Quat.from_rotation_y, Quat.from_rotation_z. simpl.
  f_equal; [f_equal|]; f_equal; nsatz.
Qed.

Lemma from_euler_to_euler_axes (q : Quat.t) :
  Quat.is_unit q ->
  -1 < 2 * (Quat.x q * Quat.z q + Quat.w q * Quat.y q) < 1 ->
  let '(a, b, c) := Quat.to_euler_xyz q in
  Mat4.quat_to_axes (Quat.from_euler_xyz a b c) = Mat4.quat_to_axes q.
Proof.
  destruct q as [x y z w]. unfold Quat.is_unit, Quat.length_squared. simpl. intros Hu Hs.
  unfold Quat.to_euler_xyz. simpl. rewrite euler_axes.
  set (s := 2 * (x * z + w * y)) in *.
  set (k := sqrt (1 - s²)).
  assert (Hk : 0 < k) by (apply sqrt_lt_R0; unfold Rsqr; nra).
  assert (Hkk : k * k = 1 - s * s) by (unfold k; rewrite sqrt_sqrt; unfold Rsqr; nra).
  rewrite clamp_id by lra. rewrite sin_asin, cos_asin by lra. fold k.
  destruct (atan2_cos_sin (-2 * (y * z - w * x)) (w * w - x * x - y * y + z * z)) as [Ca Sa].
  destruct (atan2_cos_sin (-2 * (x * y - w * z)) (w * w + x * x - y * y - z * z)) as [Cc Sc].
  set (a := F32.atan2 _ (w * w - x * x - y * y + z * z)) in *.
  set (c := F32.atan2 _ (w * w + x * x - y * y - z * z)) in *.
  replace (sqrt _) with k in Ca, Sa by (unfold k, s; f_equal; unfold Rsqr; nsatz).
  replace (sqrt _) with k in Cc, Sc by (unfold k, s; f_equal; unfold Rsqr; nsatz).
  unfold Mat4.quat_to_axes; simpl.
  f_equal; [f_equal|]; f_equal; apply (Rmult_eq_reg_l (k * k)); try nra; unfold s in *; nsatz.
Qed.

Lemma neg_neg (q : Quat.t) : Quat.neg (Quat.neg q) = q.
Proof. destruct q. unfold Quat.neg. simpl. f_equal; ring. Qed.

(** Away from gimbal lock, converting a unit quaternion to XYZ Euler
    angles and back gives the same rotation: the quaternion or its
    opposite. *)
Theorem from_euler_to_euler (q : Quat.t) :
  Quat.is_unit q ->
  -1 < 2 * (Quat.x q * Quat.z q + Quat.w q * Quat.y q) < 1 ->
  let '(a, b, c) := Quat.to_euler_xyz q in
  Quat.from_euler_xyz a b c = q \/ Quat.from_euler_xyz a b c = Quat.neg q.
Proof.
  intros Hu Hs. pose proof (from_euler_to_euler_axes q Hu Hs) as Hax.
  destruct (Quat.to_euler_xyz q) as [[a b] c].
  pose proof (from_rotation_axes_unit q Hu) as Hq.
  pose proof (from_rotation_axes_unit _ (from_euler_xyz_unit a b c)) as Hp.
  rewrite Hax in Hp.
  destruct (Mat4.quat_to_axes q) as [[xa ya] za].
  set (p := Quat.from_euler_xyz a b c) in *.
  destruct Hq as [Hq | Hq]; destruct Hp as [Hp | Hp]; rewrite Hq in Hp.
  - left. symmetry. exact Hp.
  - right. rewrite Hp, neg_neg. reflexivity.
  - right. symmetry. exact Hp.
  - left. rewrite <- (neg_neg p), <- Hp, neg_neg. reflexivity.
Qed.

(** At gimbal lock ([b = PI/2]) [to_euler_xyz] loses [a] and [c]. *)
Lemma to_euler_gimbal (a c : R) :
  Quat.to_euler_xyz (Quat.from_euler_xyz a (PI / 2) c) = (0, PI / 2, 0).
Proof.
  rewrite from_euler_xyz_product.
  unfold Quat.to_euler_xyz, Quat.from_rotation_x, Quat.from_rotation_y, Quat.from_rotation_z.
  destruct (euler_xyz_polynomials (sin (a * 0.5)) (cos (a * 0.5)) (sin (PI / 2 * 0.5))
              (cos (PI / 2 * 0.5)) (sin (c * 0.5)) (cos (c * 0.5)))
    as (H1 & H2 & H3 & H4 & H5); try apply sin_cos_sq.
  rewrite H1, H2, H3, H4, H5, <- !sin_half_double, <- !cos_half_double.
  rewrite cos_PI2, sin_PI2, !Rmult_0_l, atan2_0_0, clamp_id, asin_1 by lra.
  reflexivity.
Qed.

(** The [x_axis.y] entry of a composed matrix with an Euler rotation. *)
Lemma from_srt_euler_xy (a b c : R) (s t : Vec3.t) :
  Vec4.y (Mat4.x_axis (Mat4.from_scale_rotation_translation s (Quat.from_euler_xyz a b c) t))
  = (cos a * sin c + sin a * sin b * cos c) * Vec3.x s.
Proof. unfold Mat4.from_scale_rotation_translation. rewrite euler_axes. reflexivity. Qed.
