(* ===== verification/Gizmos.v ===== *)
(** * The transform gizmo ([src/blackjack_engine/src/gizmos.rs])

    [TransformGizmo] keeps a translation, a rotation quaternion and a
    scale.  Lua scripts build one with [TransformGizmo.new] (rotation given
    as XYZ Euler angles) and read and write its three components through
    the methods marked [#[lua]]; Rust code also reads it as a matrix
    ([matrix]) and writes it from one ([set_from_matrix]).

    The struct is the record [TransformGizmo]; the Rust module [tr_gizmo]
    is the Module [tr_gizmo], one Definition per function or method, a
    [&mut self] method returning the updated record.  The [LVec3] newtype
    of the Lua boundary is transparent ([.0] and [LVec3(x)] only wrap a
    [Vec3]) and is erased.  The Lua-visible surface is [LuaCall] and
    [lua_call]; [gizmo_step] and [reachable] are the state machine of all
    the state-changing operations.

    Theorems: the unit-quaternion invariant of every reachable gizmo, the
    getter/setter laws (the rotation one up to the principal range of the
    Euler angles), and the behaviour of [set_from_matrix], which reads the
    quaternion's [x], [y], [z] as Euler angles (see [set_from_matrix_rotation]
    and [set_from_matrix_breaks_matrix]). *)

From Stdlib Require Import Reals Lra Lia List.
From S2P Require Import Prelude Glam.
Import ListNotations.
Local Open Scope R_scope.

(** [pub struct TransformGizmo { translation: Vec3, rotation: Quat, scale: Vec3 }] *)
Record TransformGizmo := mkTransformGizmo {
  translation : Vec3.t;
  rotation : Quat.t;
  scale : Vec3.t
}.

Module tr_gizmo.

(** [fn new(translation, rotation, scale) -> TransformGizmo]: the rotation
    argument is XYZ Euler angles, stored as [Quat::from_euler]. *)
Definition new (translation rotation scale : Vec3.t) : TransformGizmo :=
  let '(rx, ry, rz) := (Vec3.x rotation, Vec3.y rotation, Vec3.z rotation) in
  {| Gizmos.translation := translation;
     Gizmos.rotation := Quat.from_euler_xyz rx ry rz;
     Gizmos.scale := scale |}.

(** [pub fn translation(&self) -> Vec3]. *)
Definition translation (self : TransformGizmo) : Vec3.t := Gizmos.translation self.

(** [pub fn set_translation(&mut self, tr: LVec3)]. *)
Definition set_translation (self : TransformGizmo) (tr : Vec3.t) : TransformGizmo :=
  {| Gizmos.translation := tr;
     Gizmos.rotation := Gizmos.rotation self;
     Gizmos.scale := Gizmos.scale self |}.

(** [pub fn rotation(&self) -> Vec3]: [self.rotation.to_euler(EulerRot::XYZ).into()]. *)
Definition rotation (self : TransformGizmo) : Vec3.t :=
  let '(a, b, c) := Quat.to_euler_xyz (Gizmos.rotation self) in Vec3.new a b c.

(** [pub fn set_rotation(&mut self, rot: LVec3)]. *)
Definition set_rotation (self : TransformGizmo) (rot : Vec3.t) : TransformGizmo :=
  let '(rx, ry, rz) := (Vec3.x rot, Vec3.y rot, Vec3.z rot) in
  {| Gizmos.translation := Gizmos.translation self;
     Gizmos.rotation := Quat.from_euler_xyz rx ry rz;
     Gizmos.scale := Gizmos.scale self |}.

(** [pub fn scale(&self) -> Vec3]. *)
Definition scale (self : TransformGizmo) : Vec3.t := Gizmos.scale self.

(** [pub fn set_scale(&mut self, tr: LVec3)]. *)
Definition set_scale (self : TransformGizmo) (tr : Vec3.t) : TransformGizmo :=
  {| Gizmos.translation := Gizmos.translation self;
     Gizmos.rotation := Gizmos.rotation self;
     Gizmos.scale := tr |}.

(** [pub fn matrix(&self) -> Mat4]. *)
Definition matrix (self : TransformGizmo) : Mat4.t :=
  Mat4.from_scale_rotation_translation (Gizmos.scale self) (Gizmos.rotation self)
    (Gizmos.translation self).

(** [pub fn set_from_matrix(&mut self, m: Mat4)]: note that the rotation
    [r] is a quaternion, and its [x], [y], [z] are passed to [from_euler]. *)
Definition set_from_matrix (self : TransformGizmo) (m : Mat4.t) : TransformGizmo :=
  let '(s, r, t) := Mat4.to_scale_rotation_translation m in
  {| Gizmos.scale := s;
     Gizmos.translation := t;
     Gizmos.rotation := Quat.from_euler_xyz (Quat.x r) (Quat.y r) (Quat.z r) |}.

(** ** The Lua surface generated by [#[lua_impl]]

    Only the methods marked [#[lua]] are callable from Lua; the getters
    are marked [#[lua(map = "LVec3(x)")]] and return a vector, the
    setters return nothing.  [matrix] and [set_from_matrix] are not
    exposed. *)
Inductive LuaCall : Type :=
| CallTranslation
| CallSetTranslation (tr : Vec3.t)
| CallRotation
| CallSetRotation (rot : Vec3.t)
| CallScale
| CallSetScale (tr : Vec3.t).

Inductive LuaRet : Type :=
| RetUnit
| RetVec3 (v : Vec3.t).

Definition lua_call (self : TransformGizmo) (c : LuaCall) : TransformGizmo * LuaRet :=
  match c with
  | CallTranslation => (self, RetVec3 (translation self))
  | CallSetTranslation tr => (set_translation self tr, RetUnit)
  | CallRotation => (self, RetVec3 (rotation self))
  | CallSetRotation rot => (set_rotation self rot, RetUnit)
  | CallScale => (self, RetVec3 (scale self))
  | CallSetScale tr => (set_scale self tr, RetUnit)
  end.

End tr_gizmo.

Import tr_gizmo.

(** A Lua script as the sequence of the calls it makes on one gizmo. *)
Fixpoint run_lua (g : TransformGizmo) (cs : list LuaCall) : TransformGizmo * list LuaRet :=
  match cs with
  | [] => (g, [])
  | c :: cs' =>
      let '(g1, r) := lua_call g c in
      let '(g2, rs) := run_lua g1 cs' in (g2, r :: rs)
  end.

(** ** The gizmo as a state machine

    One transition per method that changes the gizmo, from Lua or from
    Rust; a gizmo is reachable when it is built by [new] and then
    transformed by any sequence of transitions. *)
Inductive gizmo_step : TransformGizmo -> TransformGizmo -> Prop :=
| step_set_translation g v : gizmo_step g (set_translation g v)
| step_set_rotation g v : gizmo_step g (set_rotation g v)
| step_set_scale g v : gizmo_step g (set_scale g v)
| step_set_from_matrix g m : gizmo_step g (set_from_matrix g m).

Inductive reachable : TransformGizmo -> Prop :=
| reachable_new t r s : reachable (new t r s)
| reachable_step g g' : reachable g -> gizmo_step g g' -> reachable g'.

(** The invariant: the stored rotation is a unit quaternion. *)
Definition gizmo_wf (g : TransformGizmo) : Prop := Quat.is_unit (Gizmos.rotation g).

(** XYZ Euler angles in the range [to_euler] returns without loss. *)
Definition principal_euler (v : Vec3.t) : Prop :=
  - PI < Vec3.x v <= PI /\ - (PI / 2) < Vec3.y v < PI / 2 /\ - PI < Vec3.z v <= PI.

(** ** The unit-rotation invariant *)

Lemma gizmo_step_wf (g g' : TransformGizmo) :
  gizmo_wf g -> gizmo_step g g' -> gizmo_wf g'.
Proof.
  intros Hwf Hs. destruct Hs; unfold gizmo_wf; simpl; try exact Hwf; auto with bj.
Qed.

(** C1: every gizmo a program can build, by [new] and any sequence of
    calls to [set_translation], [set_rotation], [set_scale] and
    [set_from_matrix], stores a unit quaternion. *)
Theorem reachable_wf (g : TransformGizmo) : reachable g -> gizmo_wf g.
Proof.
  induction 1 as [t r s | g g' _ IH Hs].
  - apply from_euler_xyz_unit.
  - exact (gizmo_step_wf g g' IH Hs).
Qed.

Lemma reachable_wf_witness :
  let g := set_rotation (new (Vec3.new 0 0 0) (Vec3.new 1 2 3) (Vec3.new 1 1 1)) (Vec3.new 3 0 1) in
  reachable g /\ gizmo_wf g.
Proof.
  intros g.
  assert (Hr : reachable g)
    by (eapply reachable_step; [apply reachable_new | apply step_set_rotation]).
  split; [exact Hr | exact (reachable_wf g Hr)].
Defined.

(** ** Getters and setters *)

Lemma rotation_of_euler (v : Vec3.t) :
  principal_euler v ->
  let '(rx, ry, rz) := (Vec3.x v, Vec3.y v, Vec3.z v) in
  (let '(a, b, c) := Quat.to_euler_xyz (Quat.from_euler_xyz rx ry rz) in Vec3.new a b c) = v.
Proof.
  intros (Hx & Hy & Hz). rewrite to_euler_from_euler_xyz by assumption. apply Vec3_eta.
Qed.

(** C4: reading the rotation back after [set_rotation] returns the Euler
    angles written, when they lie in the principal range [to_euler]
    produces ([x] and [z] in (-PI, PI], [y] in (-PI/2, PI/2)). *)
Theorem rotation_set_rotation (g : TransformGizmo) (v : Vec3.t) :
  principal_euler v -> rotation (set_rotation g v) = v.
Proof. intros Hv. exact (rotation_of_euler v Hv). Qed.

Lemma rotation_set_rotation_witness :
  principal_euler (Vec3.new (PI / 2) 0 (- (PI / 4))) /\
  rotation (set_rotation (new (Vec3.new 0 0 0) (Vec3.new 0 0 0) (Vec3.new 1 1 1))
                         (Vec3.new (PI / 2) 0 (- (PI / 4)))) = Vec3.new (PI / 2) 0 (- (PI / 4)).
Proof.
  assert (Hv : principal_euler (Vec3.new (PI / 2) 0 (- (PI / 4))))
    by (pose proof PI_RGT_0; unfold principal_euler; simpl; lra).
  split; [exact Hv | apply rotation_set_rotation; exact Hv].
Defined.

(** C6: [new t r s] stores [t] and [s] as given and a rotation whose
    Euler angles read back as [r] when [r] is in the principal range. *)
Theorem new_components (t r s : Vec3.t) :
  principal_euler r ->
  translation (new t r s) = t /\ rotation (new t r s) = r /\ scale (new t r s) = s.
Proof. intros Hr. split; [reflexivity | split; [exact (rotation_of_euler r Hr) | reflexivity]]. Qed.

Lemma new_components_witness :
  principal_euler (Vec3.new PI (PI / 3) 1) /\
  translation (new (Vec3.new 1 2 3) (Vec3.new PI (PI / 3) 1) (Vec3.new 2 2 2)) = Vec3.new 1 2 3 /\
  rotation (new (Vec3.new 1 2 3) (Vec3.new PI (PI / 3) 1) (Vec3.new 2 2 2)) = Vec3.new PI (PI / 3) 1 /\
  scale (new (Vec3.new 1 2 3) (Vec3.new PI (PI / 3) 1) (Vec3.new 2 2 2)) = Vec3.new 2 2 2.
Proof.
  assert (Hr : principal_euler (Vec3.new PI (PI / 3) 1))
    by (pose proof PI2_3_2; unfold principal_euler; simpl; lra).
  split; [exact Hr | apply new_components; exact Hr].
Defined.

(** ** Matrix round trips *)

(** A positive scale: [to_scale_rotation_translation] recovers it. *)
Definition positive_scale (g : TransformGizmo) : Prop :=
  0 < Vec3.x (Gizmos.scale g) /\ 0 < Vec3.y (Gizmos.scale g) /\ 0 < Vec3.z (Gizmos.scale g).

(** C5: glam decomposes [matrix g] back into the gizmo's scale and
    translation and its rotation or its opposite (the same rotation). *)
Theorem matrix_decompose (g : TransformGizmo) :
  gizmo_wf g -> positive_scale g ->
  exists r, Mat4.to_scale_rotation_translation (matrix g) = (scale g, r, translation g) /\
            (r = Gizmos.rotation g \/ r = Quat.neg (Gizmos.rotation g)).
Proof. intros Hu (Hx & Hy & Hz). exact (to_srt_from_srt _ _ _ Hu Hx Hy Hz). Qed.

(** What [set_from_matrix (matrix g)] stores, through the decomposed
    quaternion [r], which is the rotation of [g] or its opposite. *)
Lemma set_from_matrix_matrix_eq (g : TransformGizmo) :
  gizmo_wf g -> positive_scale g ->
  exists r, (r = Gizmos.rotation g \/ r = Quat.neg (Gizmos.rotation g)) /\
    set_from_matrix g (matrix g) =
    {| Gizmos.scale := scale g; Gizmos.translation := translation g;
       Gizmos.rotation := Quat.from_euler_xyz (Quat.x r) (Quat.y r) (Quat.z r) |}.
Proof.
  intros Hu (Hx & Hy & Hz). destruct (to_srt_from_srt (Gizmos.scale g) (Gizmos.rotation g) (Gizmos.translation g) Hu Hx Hy Hz) as (r & E & Hr).
  exists r. split; [exact Hr|]. unfold set_from_matrix, matrix. rewrite E. reflexivity.
Qed.

(** C2: [set_from_matrix (matrix g)] restores the scale and the
    translation, but stores [from_euler(q.x, q.y, q.z)] (or the same with
    the signs flipped) where [q] was the rotation: the quaternion's
    imaginary parts are read as Euler angles. *)
Theorem set_from_matrix_rotation (g : TransformGizmo) :
  gizmo_wf g -> positive_scale g ->
  let q := Gizmos.rotation g in
  let g' := set_from_matrix g (matrix g) in
  scale g' = scale g /\ translation g' = translation g /\
  (Gizmos.rotation g' = Quat.from_euler_xyz (Quat.x q) (Quat.y q) (Quat.z q) \/
   Gizmos.rotation g' = Quat.from_euler_xyz (- Quat.x q) (- Quat.y q) (- Quat.z q)).
Proof.
  intros Hu Hs. destruct (set_from_matrix_matrix_eq g Hu Hs) as (r & Hr & ->). simpl.
  split; [reflexivity | split; [reflexivity |]].
  destruct Hr as [-> | ->]; [left | right]; reflexivity.
Qed.

Lemma set_from_matrix_rotation_witness :
  let g := new (Vec3.new 1 2 3) (Vec3.new 0 0 0) (Vec3.new 1 1 1) in
  (gizmo_wf g /\ positive_scale g) /\
  (scale (set_from_matrix g (matrix g)) = scale g /\
   translation (set_from_matrix g (matrix g)) = translation g /\
   (Gizmos.rotation (set_from_matrix g (matrix g)) =
      Quat.from_euler_xyz (Quat.x (Gizmos.rotation g)) (Quat.y (Gizmos.rotation g))
                          (Quat.z (Gizmos.rotation g)) \/
    Gizmos.rotation (set_from_matrix g (matrix g)) =
      Quat.from_euler_xyz (- Quat.x (Gizmos.rotation g)) (- Quat.y (Gizmos.rotation g))
                          (- Quat.z (Gizmos.rotation g)))).
Proof.
  intros g.
  assert (Hw : gizmo_wf g) by apply from_euler_xyz_unit.
  assert (Hp : positive_scale g) by (unfold positive_scale; simpl; lra).
  split; [split; assumption | exact (set_from_matrix_rotation g Hw Hp)].
Defined.

Lemma matrix_decompose_witness :
  let g := new (Vec3.new 1 2 3) (Vec3.new 0 0 0) (Vec3.new 1 1 1) in
  (gizmo_wf g /\ positive_scale g) /\
  exists r, Mat4.to_scale_rotation_translation (matrix g) = (scale g, r, translation g) /\
            (r = Gizmos.rotation g \/ r = Quat.neg (Gizmos.rotation g)).
Proof.
  intros g.
  assert (Hw : gizmo_wf g) by apply from_euler_xyz_unit.
  assert (Hp : positive_scale g) by (unfold positive_scale; simpl; lra).
  split; [split; assumption | exact (matrix_decompose g Hw Hp)].
Defined.

(** The rotation by [PI] about [x] is the quaternion [(1, 0, 0, 0)]. *)
Lemma from_euler_pi_x : Quat.from_euler_xyz PI 0 0 = Quat.from_xyzw 1 0 0 0.
Proof.
  rewrite from_euler_xyz_product.
  unfold Quat.mul_quat, Quat.from_rotation_x, Quat.from_rotation_y, Quat.from_rotation_z.
  replace (PI * 0.5) with (PI / 2) by lra.
  replace (0 * 0.5) with 0 by ring.
  rewrite sin_PI2, cos_PI2, sin_0, cos_0. simpl. f_equal; ring.
Qed.

Lemma cos_1_pos : 0 < cos 1.
Proof. apply cos_gt_0; pose proof PI2_3_2; lra. Qed.

(** C3: [set_from_matrix] is not a left inverse of [matrix]: for the
    gizmo rotated by [PI] about [x] with unit scale, writing its own
    matrix back changes the matrix (the [y_axis.y] entry goes from
    [cos PI = -1] to [cos 1]). *)
Theorem set_from_matrix_breaks_matrix :
  exists g, reachable g /\ positive_scale g /\ matrix (set_from_matrix g (matrix g)) <> matrix g.
Proof.
  set (g := new (Vec3.new 0 0 0) (Vec3.new PI 0 0) (Vec3.new 1 1 1)).
  assert (Hr : reachable g) by apply reachable_new.
  assert (Hp : positive_scale g) by (unfold positive_scale; simpl; lra).
  exists g. split; [exact Hr | split; [exact Hp |]].
  assert (Hw : gizmo_wf g) by apply from_euler_xyz_unit.
  destruct (set_from_matrix_matrix_eq g Hw Hp) as (r & Hq & ->).
  assert (Eq : Gizmos.rotation g = Quat.from_xyzw 1 0 0 0) by apply from_euler_pi_x.
  rewrite Eq in Hq. intros Heq. apply (f_equal (fun m => Vec4.y (Mat4.y_axis m))) in Heq.
  unfold matrix in Heq. cbn [Gizmos.scale Gizmos.rotation] in Heq. unfold scale in Heq.
  replace (Gizmos.rotation g) with (Quat.from_euler_xyz PI 0 0) in Heq by reflexivity.
  rewrite from_srt_euler_x_yy, cos_PI in Heq.
  pose proof cos_1_pos.
  destruct Hq as [-> | ->]; cbn [Quat.x Quat.y Quat.z Quat.neg] in Heq;
    rewrite ?Ropp_0, from_srt_euler_x_yy in Heq;
    [| rewrite cos_neg in Heq]; destruct Hp as (_ & Hy & _); nra.
Qed.

(** ** Lua scripts *)

Lemma run_lua_app (g : TransformGizmo) (pre post : list LuaCall) :
  run_lua g (pre ++ post) =
  let '(g1, rs1) := run_lua g pre in let '(g2, rs2) := run_lua g1 post in (g2, rs1 ++ rs2).
Proof.
  revert g. induction pre as [|c pre IH]; intros g; simpl.
  - destruct (run_lua g post); reflexivity.
  - destruct (lua_call g c) as [g1 r]. rewrite IH.
    destruct (run_lua g1 pre) as [g2 rs1]. destruct (run_lua g2 post). reflexivity.
Qed.

Lemma run_lua_length (g : TransformGizmo) (cs : list LuaCall) :
  length (snd (run_lua g cs)) = length cs.
Proof.
  revert g. induction cs as [|c cs IH]; intros g; simpl; [reflexivity|].
  destruct (lua_call g c) as [g1 r]. specialize (IH g1).
  destruct (run_lua g1 cs). simpl in *. congruence.
Qed.

(** The translation and the scale after a script: the last value set. *)
Definition last_set_translation (t0 : Vec3.t) (cs : list LuaCall) : Vec3.t :=
  fold_left (fun t c => match c with CallSetTranslation v => v | _ => t end) cs t0.
Definition last_set_scale (s0 : Vec3.t) (cs : list LuaCall) : Vec3.t :=
  fold_left (fun s c => match c with CallSetScale v => v | _ => s end) cs s0.

Lemma run_lua_last_set (g : TransformGizmo) (cs : list LuaCall) :
  translation (fst (run_lua g cs)) = last_set_translation (translation g) cs /\
  scale (fst (run_lua g cs)) = last_set_scale (scale g) cs.
Proof.
  unfold last_set_translation, last_set_scale.
  revert g. induction cs as [|c cs IH]; intros g; simpl; [split; reflexivity|].
  destruct (lua_call g c) as [g1 r] eqn:E. specialize (IH g1).
  destruct (run_lua g1 cs) as [g2 rs]. simpl in *.
  destruct c; injection E as <- _; exact IH.
Qed.

(** C7: in a Lua script, a call to [translation] returns the value of the
    latest [set_translation] before it (the gizmo's translation if there
    is none), and likewise a call to [scale] for [set_scale]. *)
Theorem lua_read_latest_write (g : TransformGizmo) (pre post : list LuaCall) :
  nth_error (snd (run_lua g (pre ++ CallTranslation :: post))) (length pre)
    = Some (RetVec3 (last_set_translation (translation g) pre)) /\
  nth_error (snd (run_lua g (pre ++ CallScale :: post))) (length pre)
    = Some (RetVec3 (last_set_scale (scale g) pre)).
Proof.
  rewrite !run_lua_app. pose proof (run_lua_length g pre) as Hl.
  destruct (run_lua_last_set g pre) as [Ht Hs].
  destruct (run_lua g pre) as [g1 rs1]. simpl in *.
  destruct (run_lua g1 post) as [g2 rs2]. subst.
  cbn [snd]. rewrite <- Hl, !nth_error_app2, Nat.sub_diag by lia. rewrite Ht, Hs. split; reflexivity.
Qed.

(** ** Reading the rotation and writing it back *)

(** The gizmo is away from gimbal lock: the sine of its [y] Euler angle,
    [2 (x z + w y)], is strictly between -1 and 1. *)
Definition not_gimbal_locked (g : TransformGizmo) : Prop :=
  let q := Gizmos.rotation g in -1 < 2 * (Quat.x q * Quat.z q + Quat.w q * Quat.y q) < 1.

(** The rotation stored back from the Euler angles [rotation] reads gives
    the same matrix, whatever the scale and the translation. *)
Lemma from_srt_rotation_readback (g : TransformGizmo) (s t : Vec3.t) :
  gizmo_wf g -> not_gimbal_locked g ->
  Mat4.from_scale_rotation_translation s
    (Quat.from_euler_xyz (Vec3.x (rotation g)) (Vec3.y (rotation g)) (Vec3.z (rotation g))) t =
  Mat4.from_scale_rotation_translation s (Gizmos.rotation g) t.
Proof.
  intros Hu Hs. pose proof (from_euler_to_euler _ Hu Hs) as H. revert H. unfold rotation.
  destruct (Quat.to_euler_xyz (Gizmos.rotation g)) as [[a b] c]. cbn [Vec3.x Vec3.y Vec3.z].
  intros [-> | ->]; [reflexivity | apply from_srt_neg].
Qed.

(** C8: away from gimbal lock, writing back the Euler angles the
    rotation getter returns ([set_rotation g (rotation g)]) leaves the
    gizmo's matrix unchanged. *)
Theorem set_rotation_rotation (g : TransformGizmo) :
  gizmo_wf g -> not_gimbal_locked g -> matrix (set_rotation g (rotation g)) = matrix g.
Proof. intros Hu Hs. exact (from_srt_rotation_readback g _ _ Hu Hs). Qed.

Lemma from_euler_zero : Quat.from_euler_xyz 0 0 0 = Quat.from_xyzw 0 0 0 1.
Proof.
  rewrite from_euler_xyz_product.
  unfold Quat.mul_quat, Quat.from_rotation_x, Quat.from_rotation_y, Quat.from_rotation_z.
  rewrite Rmult_0_l, sin_0, cos_0. simpl. f_equal; ring.
Qed.

Lemma set_rotation_rotation_witness :
  let g := new (Vec3.new 1 2 3) (Vec3.new 0 0 0) (Vec3.new 2 1 1) in
  (gizmo_wf g /\ not_gimbal_locked g) /\ matrix (set_rotation g (rotation g)) = matrix g.
Proof.
  intros g.
  assert (Hw : gizmo_wf g) by apply from_euler_xyz_unit.
  assert (Hn : not_gimbal_locked g)
    by (unfold not_gimbal_locked, g, new; cbn [Gizmos.rotation Vec3.x Vec3.y Vec3.z];
        rewrite from_euler_zero; cbn [Quat.x Quat.y Quat.z Quat.w]; lra).
  split; [split; assumption | exact (set_rotation_rotation g Hw Hn)].
Defined.

(** C9: at gimbal lock the round trip fails: for the gizmo built with
    Euler angles [(1, PI/2, 0)], [set_rotation g (rotation g)] changes the
    matrix ([x_axis.y] goes from [sin 1] to [0]). *)
Theorem set_rotation_rotation_gimbal :
  exists g, reachable g /\ positive_scale g /\ matrix (set_rotation g (rotation g)) <> matrix g.
Proof.
  set (g := new (Vec3.new 0 0 0) (Vec3.new 1 (PI / 2) 0) (Vec3.new 1 1 1)).
  exists g. split; [apply reachable_new | split; [unfold positive_scale; simpl; lra |]].
  unfold matrix, set_rotation, rotation, g, new.
  cbn [Gizmos.rotation Gizmos.scale Gizmos.translation Vec3.x Vec3.y Vec3.z].
  rewrite to_euler_gimbal. cbn [Vec3.x Vec3.y Vec3.z].
  intros Heq. apply (f_equal (fun m => Vec4.y (Mat4.x_axis m))) in Heq.
  rewrite !from_srt_euler_xy, sin_0, cos_0, sin_PI2 in Heq. simpl in Heq.
  assert (0 < sin 1) by (apply sin_gt_0; pose proof PI2_3_2; lra). lra.
Qed.
