(* ===== verification/Values.v ===== *)
(** * The value and type model of the graph compiler (spec 4.1)

    The graph compiler's code (the [graph] module) is not under [src/];
    this file models its value universe from the spec: the data types
    nodes exchange, the values of each type, and [is_assignable], the
    compatibility check the graph editor and the compiler apply to every
    binding.  The scalar type is a parameter [F] ([f64] in the program):
    the compiler never computes with scalars, it only carries them, and
    the interchange with the gizmo instantiates it with [R].

    The spec lists no integer value yet names an integer-to-float
    coercion as the example widening (spec 3); the model has an
    [Integer] variant so that the whitelist is not empty. *)

From stdpp Require Import base strings.
From Stdlib Require Import ZArith.
From S2P Require Import Prelude.

(** The declared type of a slot. *)
Inductive DataType : Type :=
| TScalar
| TInteger
| TVector3
| TTransform
| TText
| TEnum
| TMesh.

#[export] Instance DataType_eq_dec : EqDecision DataType.
Proof. solve_decision. Defined.

Section Values.
Context {F : Type}.

(** A value: [Scalar(f64)], [Vector3], [Transform(translation, rotation,
    scale)] with the rotation as XYZ Euler angles, [Text], [Enum(tag)],
    [MeshRef] (an opaque handle), and the integers of the widening. *)
Inductive Value : Type :=
| Scalar (f : F)
| Integer (n : Z)
| Vector3 (x y z : F)
| Transform (translation rotation scale : F * F * F)
| Text (s : string)
| Enum (tag : string)
| MeshRef (handle : positive).

Definition value_type (v : Value) : DataType :=
  match v with
  | Scalar _ => TScalar
  | Integer _ => TInteger
  | Vector3 _ _ _ => TVector3
  | Transform _ _ _ => TTransform
  | Text _ => TText
  | Enum _ => TEnum
  | MeshRef _ => TMesh
  end.

End Values.
Arguments Value : clear implicits.

(** [is_assignable(from_type, to_type)]: exact matches plus the fixed
    whitelist of numeric widenings (integer to scalar); no mesh/scalar
    conversion. *)
Definition is_assignable (from to : DataType) : bool :=
  bool_decide (from = to) ||
  match from, to with
  | TInteger, TScalar => true
  | _, _ => false
  end.

(** ** Lemmas *)

Lemma is_assignable_refl (t : DataType) : is_assignable t t = true.
Proof. unfold is_assignable. by rewrite bool_decide_eq_true_2. Qed.

(** The only conversion between different types is integer to scalar. *)
Lemma is_assignable_cases (from to : DataType) :
  is_assignable from to = true <-> from = to \/ (from = TInteger /\ to = TScalar).
Proof.
  unfold is_assignable. rewrite orb_true_iff, bool_decide_eq_true.
  destruct from, to; naive_solver.
Qed.

Lemma is_assignable_trans (a b c : DataType) :
  is_assignable a b = true -> is_assignable b c = true -> is_assignable a c = true.
Proof. rewrite !is_assignable_cases. naive_solver. Qed.

#[export] Hint Resolve is_assignable_refl : bj.
